(** * Physics lists of the EMCal exercise

    The repository holds three physics lists for a Geant4 simulation,
    [EMPhysics], [TherapyPhysics] and [MyQGSP_BERT], and the boost.python
    module [libphyslist] that wraps them.  Every operation of the three
    classes is a short sequence of calls into Geant4.  Geant4 itself is not
    part of the repository, so the operations are embedded as programs over
    the calls they make ([Prog]); the calls are answered by a handler, which
    is either a parameter (any framework) or the recording framework
    [record] of this file. *)

From Stdlib Require Import ZArith String List PrimFloat.
From stdpp Require Import base option list gmap strings.

Local Open Scope string_scope.
Local Open Scope Z_scope.
Local Open Scope list_scope.

(** ** Types of the framework used by the sources *)

(** [G4int] is a C++ [int]; the sources only pass it on, no arithmetic. *)
Definition G4int : Type := Z.

(** [G4double] is a C++ [double], an IEEE 754 binary64 number. *)
Definition G4double : Type := float.

(** Address of an object created with [new]. *)
Definition ptr : Type := N.

(** The physics-list classes of Geant4 that the repository derives from. *)
Inductive G4List : Type :=
  | G4VModularPhysicsList
  | QGSP_BIC
  | QGSP_BERT.

(** The physics constructors of Geant4 that the repository instantiates. *)
Inductive G4Physics : Type :=
  | G4EmStandardPhysics
  | G4StepLimiterPhysics
  | G4NeutronTrackingCut.

#[global] Instance G4List_eq_dec : EqDecision G4List.
Proof. solve_decision. Defined.

#[global] Instance G4Physics_eq_dec : EqDecision G4Physics.
Proof. solve_decision. Defined.

(** ** Calls into the framework

    One constructor per call that occurs in the sources:
    - [call_base b args]: the constructor of the base sub-object,
      [QGSP_BIC(verbose)], [QGSP_BERT(verbose)], or the implicit
      [G4VModularPhysicsList()] of [EMPhysics];
    - [call_new k ver]: [new K(ver)] for a physics constructor [K];
    - [call_SetKineticEnergyLimit p e]: [p->SetKineticEnergyLimit(e)];
    - [call_SetVerboseLevel ver], [call_RegisterPhysics p]: the inherited
      member functions, called on [this];
    - [call_cout s], [call_endl]: [G4cout << s], [G4cout << G4endl];
    - [call_base_SetCuts b]: the qualified call [B::SetCuts()], also what a
      virtual call of [SetCuts] reaches in a class that does not override it;
    - [call_base_dtor b]: the destructor of the base sub-object, which runs
      after the body of a destructor of the derived class. *)
Inductive G4Call : Type :=
  | call_base (b : G4List) (args : list G4int)
  | call_new (k : G4Physics) (ver : G4int)
  | call_SetKineticEnergyLimit (p : ptr) (e : G4double)
  | call_SetVerboseLevel (ver : G4int)
  | call_RegisterPhysics (p : ptr)
  | call_cout (s : string)
  | call_endl
  | call_base_SetCuts (b : G4List)
  | call_base_dtor (b : G4List).

(** What a call hands back: [new] yields the address of the object, every
    other call is [void] (or its value is dropped by the sources). *)
Definition resp (c : G4Call) : Type :=
  match c with
  | call_new _ _ => ptr
  | _ => unit
  end.

(** The name of a call without its arguments. *)
Inductive G4Op : Type :=
  | op_base (b : G4List)
  | op_new (k : G4Physics)
  | op_SetKineticEnergyLimit
  | op_SetVerboseLevel
  | op_RegisterPhysics
  | op_cout
  | op_endl
  | op_base_SetCuts (b : G4List)
  | op_base_dtor (b : G4List).

Definition op_of (c : G4Call) : G4Op :=
  match c with
  | call_base b _ => op_base b
  | call_new k _ => op_new k
  | call_SetKineticEnergyLimit _ _ => op_SetKineticEnergyLimit
  | call_SetVerboseLevel _ => op_SetVerboseLevel
  | call_RegisterPhysics _ => op_RegisterPhysics
  | call_cout _ => op_cout
  | call_endl => op_endl
  | call_base_SetCuts b => op_base_SetCuts b
  | call_base_dtor b => op_base_dtor b
  end.

(** ** Programs over framework calls *)

Inductive Prog (A : Type) : Type :=
  | Ret (a : A)
  | Do (c : G4Call) (k : resp c -> Prog A).

Arguments Ret {A} a.
Arguments Do {A} c k.

Fixpoint bind {A B : Type} (m : Prog A) (f : A -> Prog B) : Prog B :=
  match m with
  | Ret a => f a
  | Do c k => Do c (fun r => bind (k r) f)
  end.

#[global] Instance Prog_ret : MRet Prog := @Ret.
#[global] Instance Prog_bind : MBind Prog := fun A B f m => bind m f.

Definition call (c : G4Call) : Prog (resp c) := Do c Ret.

(** The calls under the names the sources use. *)
Definition base_ctor (b : G4List) (args : list G4int) : Prog unit :=
  call (call_base b args).
Definition new_ (k : G4Physics) (ver : G4int) : Prog ptr :=
  call (call_new k ver).
Definition SetKineticEnergyLimit (p : ptr) (e : G4double) : Prog unit :=
  call (call_SetKineticEnergyLimit p e).
Definition SetVerboseLevel (ver : G4int) : Prog unit :=
  call (call_SetVerboseLevel ver).
Definition RegisterPhysics (p : ptr) : Prog unit :=
  call (call_RegisterPhysics p).
Definition G4cout (s : string) : Prog unit := call (call_cout s).
Definition G4endl : Prog unit := call call_endl.
Definition base_SetCuts (b : G4List) : Prog unit :=
  call (call_base_SetCuts b).
Definition base_dtor (b : G4List) : Prog unit :=
  call (call_base_dtor b).

(** ** The three physics lists *)

Inductive PhysList : Type :=
  | EMPhysics
  | TherapyPhysics
  | MyQGSP_BERT.

#[global] Instance PhysList_eq_dec : EqDecision PhysList.
Proof. solve_decision. Defined.

Section Units.

(** [MeV] comes from G4SystemOfUnits.hh, which is not part of the
    repository: it is a parameter of the constructor that uses it. *)
Variable MeV : G4double.

(** EMPhysics.cc, [EMPhysics::EMPhysics(G4int ver)].  No base is named in
    the initialiser list, so the base sub-object is default-constructed. *)
Definition EMPhysics_ctor (ver : G4int) : Prog unit :=
  base_ctor G4VModularPhysicsList [];;
  G4cout "<<< Geant4 Physics List simulation engine: EMPhysics";;
  G4endl;;
  G4endl;;
  SetVerboseLevel ver;;
  em ← new_ G4EmStandardPhysics ver;
  RegisterPhysics em.

(** TherapyPhysics.cc, [TherapyPhysics::TherapyPhysics(G4int verbose)]. *)
Definition TherapyPhysics_ctor (verbose : G4int) : Prog unit :=
  base_ctor QGSP_BIC [verbose];;
  G4cout "###Adding step limiter physics to the list...";;
  G4endl;;
  G4endl;;
  sl ← new_ G4StepLimiterPhysics verbose;
  RegisterPhysics sl.

(** MyQGSP_BERT.cc, [MyQGSP_BERT::MyQGSP_BERT(G4int verbose)]. *)
Definition MyQGSP_BERT_ctor (verbose : G4int) : Prog unit :=
  base_ctor QGSP_BERT [verbose];;
  neuCut ← new_ G4NeutronTrackingCut verbose;
  SetKineticEnergyLimit neuCut (0.5 * MeV)%float;;
  RegisterPhysics neuCut;;
  G4cout "###Changing the neutron cuts of the physicslist...";;
  G4endl;;
  G4endl;;
  sl ← new_ G4StepLimiterPhysics verbose;
  RegisterPhysics sl;;
  G4cout "###Adding step limiter physics to the Geant4 simulation engine...";;
  G4endl;;
  G4endl.

Definition ctor (c : PhysList) (verbose : G4int) : Prog unit :=
  match c with
  | EMPhysics => EMPhysics_ctor verbose
  | TherapyPhysics => TherapyPhysics_ctor verbose
  | MyQGSP_BERT => MyQGSP_BERT_ctor verbose
  end.

End Units.

(** TherapyPhysics.cc, [TherapyPhysics::SetCuts()]. *)
Definition TherapyPhysics_SetCuts : Prog unit :=
  base_SetCuts QGSP_BIC.

(** MyQGSP_BERT.cc, [MyQGSP_BERT::SetCuts()]. *)
Definition MyQGSP_BERT_SetCuts : Prog unit :=
  base_SetCuts QGSP_BERT.

(** ** The class declarations (the three headers) *)

(** A member declaration as the headers write them. *)
Inductive Member : Type :=
  | decl_ctor (param : string) (default : option G4int)
      (* C(G4int param = default); *)
  | decl_dtor (defaulted : bool)
      (* virtual ~C();  or  virtual ~C()=default; *)
  | decl_virtual (name : string)
      (* virtual void name(); *)
  | decl_copy_ctor_deleted
      (* C(const C&)=delete; *)
  | decl_copy_assign_deleted
      (* C& operator=(const C&)=delete; *)
  | decl_field (name : string).
      (* a data member; no header has one *)

#[global] Instance Member_eq_dec : EqDecision Member.
Proof. solve_decision. Defined.

Record ClassDecl : Type := {
  cd_base : G4List;
  cd_public : list Member;
  cd_private : list Member
}.

(** EMPhysics.hh *)
Definition EMPhysics_hh : ClassDecl := {|
  cd_base := G4VModularPhysicsList;
  cd_public := [ decl_ctor "ver" (Some 1);
                 decl_dtor true;
                 decl_copy_ctor_deleted;
                 decl_copy_assign_deleted ];
  cd_private := []
|}.

(** TherapyPhysics.hh *)
Definition TherapyPhysics_hh : ClassDecl := {|
  cd_base := QGSP_BIC;
  cd_public := [ decl_ctor "verbose" (Some 1);
                 decl_dtor false;
                 decl_virtual "SetCuts" ];
  cd_private := []
|}.

(** MyQGSP_BERT.hh *)
Definition MyQGSP_BERT_hh : ClassDecl := {|
  cd_base := QGSP_BERT;
  cd_public := [ decl_ctor "verbose" (Some 1);
                 decl_dtor false;
                 decl_virtual "SetCuts" ];
  cd_private := []
|}.

Definition decl (c : PhysList) : ClassDecl :=
  match c with
  | EMPhysics => EMPhysics_hh
  | TherapyPhysics => TherapyPhysics_hh
  | MyQGSP_BERT => MyQGSP_BERT_hh
  end.

Definition members (d : ClassDecl) : list Member :=
  cd_public d ++ cd_private d.

Definition is_field (m : Member) : bool :=
  match m with decl_field _ => true | _ => false end.

(** The data members a class declares itself. *)
Definition fields (d : ClassDecl) : list Member :=
  List.filter is_field (members d).

(** Whether the class declares (and so overrides) the virtual [name]. *)
Definition overrides (name : string) (d : ClassDecl) : bool :=
  bool_decide (decl_virtual name ∈ members d).

(** The default value of the constructor's parameter, if it has one. *)
Definition ctor_default (d : ClassDecl) : option G4int :=
  head (omap (fun m => match m with
                       | decl_ctor _ dflt => Some dflt
                       | _ => None
                       end) (cd_public d))
  ≫= id.

(** ** Construction, [SetCuts] and destruction of a list of class [c] *)

Section Operations.

Variable MeV : G4double.

(** [C(args...)] with zero or one argument: a missing argument is filled
    in from the declaration; without a default the expression is
    ill-formed. *)
Definition construct (c : PhysList) (arg : option G4int)
  : option (Prog unit) :=
  match arg with
  | Some v => Some (ctor MeV c v)
  | None => (fun d => ctor MeV c d) <$> ctor_default (decl c)
  end.

(** The definition of [C::SetCuts] in the sources, if there is one. *)
Definition SetCuts_def (c : PhysList) : option (Prog unit) :=
  match c with
  | EMPhysics => None
  | TherapyPhysics => Some TherapyPhysics_SetCuts
  | MyQGSP_BERT => Some MyQGSP_BERT_SetCuts
  end.

(** The virtual call [list->SetCuts()] on an object of class [c]: the
    override of [c] when it has one, the inherited function otherwise. *)
Definition SetCuts (c : PhysList) : Prog unit :=
  default (base_SetCuts (cd_base (decl c))) (SetCuts_def c).

(** [~C()]: the bodies in the sources are empty (or defaulted), so all
    that happens is the destruction of the base sub-object. *)
Definition dtor (c : PhysList) : Prog unit :=
  mret tt;;
  base_dtor (cd_base (decl c)).

End Operations.

(** ** The calls a program makes *)

(** The framework's answer to the [n]-th call (counted from 0) when the
    addresses [new] hands out are given by [addr]. *)
Definition reply (addr : nat -> ptr) (n : nat) (c : G4Call) : resp c :=
  match c return resp c with
  | call_new _ _ => addr n
  | _ => tt
  end.

Fixpoint trace_from {A : Type} (addr : nat -> ptr) (n : nat) (p : Prog A)
  : list G4Call :=
  match p with
  | Ret _ => []
  | Do c k => c :: trace_from addr (S n) (k (reply addr n c))
  end.

(** The calls of [p] in the order they are made, when no call throws. *)
Definition trace {A : Type} (addr : nat -> ptr) (p : Prog A) : list G4Call :=
  trace_from addr 0 p.

(** ** Running a program against a framework *)

Section Run.

(** [FW] is the state of the framework, [Exn] what its calls can throw. *)
Context {FW Exn : Type}.
Variable handle : forall c : G4Call, FW -> Exn + resp c * FW.

(** No operation of the repository catches anything: the first call that
    throws ends the run with what it threw. *)
Fixpoint run {A : Type} (p : Prog A) (s : FW) : Exn + A * FW :=
  match p with
  | Ret a => inr (a, s)
  | Do c k =>
      match handle c s with
      | inl e => inl e
      | inr (r, s') => run (k r) s'
      end
  end.

(** The same framework next to a state [L] that it does not know of. *)
Definition beside (L : Type) (c : G4Call) (sl : FW * L)
  : Exn + resp c * (FW * L) :=
  match handle c sl.1 with
  | inl e => inl e
  | inr (r, s') => inr (r, (s', sl.2))
  end.

End Run.

(** ** A framework that records what it is asked to do

    The recorder keeps the objects made with [new] in a store and writes
    down the arguments of every other call.  It stands for no particular
    release of Geant4: what Geant4 does with a registered constructor is
    outside the repository. *)

Record PhysicsObj : Type := {
  po_kind : G4Physics;
  po_verbose : G4int;
  po_limit : option G4double      (* set by SetKineticEnergyLimit *)
}.

Record World : Type := {
  heap : gmap ptr PhysicsObj;     (* the objects made with new *)
  next : ptr;                      (* the address new returns next *)
  bases : list (G4List * list G4int);  (* base sub-objects constructed *)
  verboseLevel : option G4int;    (* last SetVerboseLevel *)
  registered : list ptr;          (* arguments of RegisterPhysics, in order *)
  cout : list string;             (* what went to G4cout *)
  cuts : list G4List;             (* B::SetCuts() calls *)
  destroyed : list G4List         (* base sub-objects destroyed *)
}.

Definition World0 : World := {|
  heap := ∅; next := 0%N; bases := []; verboseLevel := None;
  registered := []; cout := []; cuts := []; destroyed := []
|}.

Inductive G4Exception : Type :=
  | null_pointer (p : ptr).

Definition newline : string := String (Ascii.ascii_of_nat 10) EmptyString.

Definition record (c : G4Call) (w : World) : G4Exception + resp c * World :=
  match c return G4Exception + resp c * World with
  | call_base b args =>
      inr (tt, {| heap := heap w; next := next w;
                  bases := bases w ++ [(b, args)];
                  verboseLevel := verboseLevel w;
                  registered := registered w; cout := cout w;
                  cuts := cuts w; destroyed := destroyed w |})
  | call_new k ver =>
      inr (next w,
           {| heap := <[next w := {| po_kind := k; po_verbose := ver;
                                     po_limit := None |}]> (heap w);
              next := N.succ (next w);
              bases := bases w; verboseLevel := verboseLevel w;
              registered := registered w; cout := cout w;
              cuts := cuts w; destroyed := destroyed w |})
  | call_SetKineticEnergyLimit p e =>
      match heap w !! p with
      | None => inl (null_pointer p)
      | Some o =>
          inr (tt, {| heap := <[p := {| po_kind := po_kind o;
                                        po_verbose := po_verbose o;
                                        po_limit := Some e |}]> (heap w);
                      next := next w;
                      bases := bases w; verboseLevel := verboseLevel w;
                      registered := registered w; cout := cout w;
                      cuts := cuts w; destroyed := destroyed w |})
      end
  | call_SetVerboseLevel ver =>
      inr (tt, {| heap := heap w; next := next w; bases := bases w;
                  verboseLevel := Some ver;
                  registered := registered w; cout := cout w;
                  cuts := cuts w; destroyed := destroyed w |})
  | call_RegisterPhysics p =>
      inr (tt, {| heap := heap w; next := next w; bases := bases w;
                  verboseLevel := verboseLevel w;
                  registered := registered w ++ [p]; cout := cout w;
                  cuts := cuts w; destroyed := destroyed w |})
  | call_cout s =>
      inr (tt, {| heap := heap w; next := next w; bases := bases w;
                  verboseLevel := verboseLevel w;
                  registered := registered w; cout := cout w ++ [s];
                  cuts := cuts w; destroyed := destroyed w |})
  | call_endl =>
      inr (tt, {| heap := heap w; next := next w; bases := bases w;
                  verboseLevel := verboseLevel w;
                  registered := registered w; cout := cout w ++ [newline];
                  cuts := cuts w; destroyed := destroyed w |})
  | call_base_SetCuts b =>
      inr (tt, {| heap := heap w; next := next w; bases := bases w;
                  verboseLevel := verboseLevel w;
                  registered := registered w; cout := cout w;
                  cuts := cuts w ++ [b]; destroyed := destroyed w |})
  | call_base_dtor b =>
      inr (tt, {| heap := heap w; next := next w; bases := bases w;
                  verboseLevel := verboseLevel w;
                  registered := registered w; cout := cout w;
                  cuts := cuts w; destroyed := destroyed w ++ [b] |})
  end.

(** Where a run of [p] from [w] ends, if nothing is thrown. *)
Definition after (p : Prog unit) (w : World) : option World :=
  match run record p w with
  | inr (_, w') => Some w'
  | inl _ => None
  end.

(** The physics constructors registered in [w], as the store has them. *)
Definition registered_physics (w : World) : list (option PhysicsObj) :=
  (fun p => heap w !! p) <$> registered w.

(** The arguments of the [RegisterPhysics] calls of a trace. *)
Definition registrations (tr : list G4Call) : list ptr :=
  omap (fun c => match c with
                 | call_RegisterPhysics p => Some p
                 | _ => None
                 end) tr.

(** Every verbosity that occurs as an argument in a trace. *)
Definition verbosities (tr : list G4Call) : list G4int :=
  tr ≫= fun c => match c with
                 | call_base _ args => args
                 | call_new _ ver => [ver]
                 | call_SetVerboseLevel ver => [ver]
                 | _ => []
                 end.

(** The arguments of the [SetKineticEnergyLimit] calls of a trace. *)
Definition energy_limits (tr : list G4Call) : list (ptr * G4double) :=
  omap (fun c => match c with
                 | call_SetKineticEnergyLimit p e => Some (p, e)
                 | _ => None
                 end) tr.


(** Every operation the repository defines, the constructors at verbosity
    [v]: three constructors, two [SetCuts] overrides, three destructors. *)
Definition operations (MeV : G4double) (v : G4int) : list (Prog unit) :=
  ((fun c => ctor MeV c v) <$> [EMPhysics; TherapyPhysics; MyQGSP_BERT])
  ++ omap SetCuts_def [EMPhysics; TherapyPhysics; MyQGSP_BERT]
  ++ (dtor <$> [EMPhysics; TherapyPhysics; MyQGSP_BERT]).

(** ** gMyPhysicsLists.cc: the boost.python module

    [class_<W, W*, bases<B>, boost::noncopyable>(name, doc)] with nothing
    chained after it: no [.def], no [init]. *)
Record class_ : Type := {
  cl_wrapped : PhysList;          (* W *)
  cl_held : PhysList;             (* the held type is a plain pointer to it *)
  cl_bases : list G4List;         (* bases<...> *)
  cl_noncopyable : bool;          (* boost::noncopyable among the arguments *)
  cl_doc : string;
  cl_defs : list string           (* members added with .def(...) *)
}.

(** Constructing a [class_] binds it to [name] in the module's namespace. *)
Definition expose (name : string) (cl : class_) (m : gmap string class_)
  : gmap string class_ :=
  <[name := cl]> m.

(** The body of [BOOST_PYTHON_MODULE(libphyslist)]. *)
Definition init_module_libphyslist (m : gmap string class_)
  : gmap string class_ :=
  let m := expose "MyQGSP_BERT"
             {| cl_wrapped := MyQGSP_BERT; cl_held := MyQGSP_BERT;
                cl_bases := [QGSP_BERT]; cl_noncopyable := true;
                cl_doc := "physics list with steplimit support";
                cl_defs := [] |} m in
  let m := expose "TherapyPhysics"
             {| cl_wrapped := TherapyPhysics; cl_held := TherapyPhysics;
                cl_bases := [QGSP_BIC]; cl_noncopyable := true;
                cl_doc := "physics list for lower energies";
                cl_defs := [] |} m in
  expose "EMPhysics"
    {| cl_wrapped := EMPhysics; cl_held := EMPhysics;
       cl_bases := [G4VModularPhysicsList]; cl_noncopyable := true;
       cl_doc := "physics list for lower energies";
       cl_defs := [] |} m.

(** The module as Python sees it after import. *)
Definition libphyslist : gmap string class_ :=
  init_module_libphyslist ∅.




(** The addresses the recorder hands out between two of its states. *)
Definition allocated (w w' : World) : list ptr :=
  (fun i => (next w + N.of_nat i)%N)
    <$> seq 0 (N.to_nat (next w' - next w)).

(** * Properties *)

(** ** Running programs: general facts *)

Section RunFacts.

Context {FW Exn : Type}.
Variable handle : forall c : G4Call, FW -> Exn + resp c * FW.

(** A single call runs as the framework answers it. *)
Lemma run_call (c : G4Call) (s : FW) :
  run handle (call c) s = handle c s.
Proof.
  unfold call. simpl.
  destruct (handle c s) as [e | [r s']]; reflexivity.
Qed.

(** Whatever a run throws was thrown by a call of the framework. *)
Lemma run_failure_origin {A : Type} (p : Prog A) (s : FW) (e : Exn) :
  run handle p s = inl e -> exists c s', handle c s' = inl e.
Proof.
  revert s. induction p as [a | c k IH]; intros s; simpl.
  - discriminate.
  - destruct (handle c s) as [e' | [r s']] eqn:Hc.
    + intros [= ->]. eauto.
    + apply IH.
Qed.

(** A state the framework does not know of is left as it was. *)
Lemma run_beside {A L : Type} (p : Prog A) (s : FW) (l : L) :
  run (beside handle L) p (s, l)
  = match run handle p s with
    | inl e => inl e
    | inr (a, s') => inr (a, (s', l))
    end.
Proof.
  revert s. induction p as [a | c k IH]; intros s; simpl.
  - reflexivity.
  - unfold beside at 1. simpl.
    destruct (handle c s) as [e | [r s']]; [reflexivity | apply IH].
Qed.

End RunFacts.

(** With a framework that never throws, every program runs to its end. *)
Lemma run_total {FW Exn A : Type}
    (answer : forall c : G4Call, FW -> resp c * FW) (p : Prog A) (s : FW) :
  exists r, run (fun c s => inr (answer c s) : Exn + resp c * FW) p s = inr r.
Proof.
  revert s. induction p as [a | c k IH]; intros s; simpl.
  - eauto.
  - destruct (answer c s) as [r s']. apply IH.
Qed.

(** ** The constructors *)

(** Runs a program against the recorder from a symbolic world: the calls are
    evaluated one after the other, the store is left as a nest of inserts,
    and a lookup of the address just written is resolved. *)
Ltac run_record :=
  cbn -[insert lookup N.succ app];
  repeat (rewrite lookup_insert_eq; cbn -[insert lookup N.succ app]);
  reflexivity.

Section Constructors.

Variable MeV : G4double.

(** C1.  Each constructor registers its fixed set of physics constructors
    and nothing else, whatever the verbosity and whatever was there
    before: [EMPhysics] one [G4EmStandardPhysics] after the default
    construction of its base, [TherapyPhysics] one [G4StepLimiterPhysics]
    after [QGSP_BIC(verbose)], [MyQGSP_BERT] a [G4NeutronTrackingCut] and
    then a [G4StepLimiterPhysics] after [QGSP_BERT(verbose)].  The
    registered addresses are those of the objects just made. *)
Theorem ctor_registers_fixed_set (v : G4int) (w : World) :
  (exists w',
      run record (ctor MeV EMPhysics v) w = inr (tt, w')
      /\ bases w' = bases w ++ [(G4VModularPhysicsList, [])]
      /\ registered w' = registered w ++ [next w]
      /\ po_kind <$> heap w' !! next w = Some G4EmStandardPhysics)
  /\ (exists w',
      run record (ctor MeV TherapyPhysics v) w = inr (tt, w')
      /\ bases w' = bases w ++ [(QGSP_BIC, [v])]
      /\ registered w' = registered w ++ [next w]
      /\ po_kind <$> heap w' !! next w = Some G4StepLimiterPhysics)
  /\ (exists w',
      run record (ctor MeV MyQGSP_BERT v) w = inr (tt, w')
      /\ bases w' = bases w ++ [(QGSP_BERT, [v])]
      /\ registered w' = registered w ++ [next w; N.succ (next w)]
      /\ po_kind <$> heap w' !! next w = Some G4NeutronTrackingCut
      /\ po_kind <$> heap w' !! N.succ (next w)
         = Some G4StepLimiterPhysics)
  /\ (forall addr : nat -> ptr,
      length (registrations (trace addr (ctor MeV EMPhysics v))) = 1%nat
      /\ length (registrations (trace addr (ctor MeV TherapyPhysics v)))
         = 1%nat
      /\ length (registrations (trace addr (ctor MeV MyQGSP_BERT v)))
         = 2%nat).
Proof.
  split; [| split; [| split]].
  - eexists. split; [run_record |]. cbn [bases registered heap].
    rewrite lookup_insert_eq. auto.
  - eexists. split; [run_record |]. cbn [bases registered heap].
    rewrite lookup_insert_eq. auto.
  - eexists. split; [run_record |]. cbn [bases registered heap].
    rewrite <- !app_assoc.
    rewrite lookup_insert_eq.
    rewrite lookup_insert_ne by lia.
    rewrite lookup_insert_eq. auto.
  - intros addr. auto.
Qed.

(** C3.  In the constructor of [MyQGSP_BERT] the kinetic-energy limit is
    set on the neutron tracking cut strictly before that object is
    registered: the object is made by the call at position 1, the limit is
    set on it at position 2, it is registered at position 3, and from
    position 3 on no limit is set any more. *)
Theorem limit_set_before_registration (v : G4int) (addr : nat -> ptr) :
  let tr := trace addr (MyQGSP_BERT_ctor MeV v) in
  let neuCut := addr 1%nat in
  tr !! 1%nat = Some (call_new G4NeutronTrackingCut v)
  /\ tr !! 2%nat = Some (call_SetKineticEnergyLimit neuCut (0.5 * MeV)%float)
  /\ tr !! 3%nat = Some (call_RegisterPhysics neuCut)
  /\ head (registrations tr) = Some neuCut
  /\ energy_limits (take 3 tr) = [(neuCut, (0.5 * MeV)%float)]
  /\ registrations (take 3 tr) = []
  /\ energy_limits (drop 3 tr) = [].
Proof.
  simpl. repeat split; reflexivity.
Qed.

(** C7.  The verbosity [v] given to a constructor is handed on unchanged:
    no other verbosity occurs in any call the constructor makes; it goes
    to the base constructor [QGSP_BIC(v)] or [QGSP_BERT(v)], or to
    [SetVerboseLevel(v)] in [EMPhysics]; and every physics constructor
    that gets registered was made with it. *)
Theorem verbosity_forwarded (c : PhysList) (v : G4int) :
  (forall addr : nat -> ptr,
      Forall (fun x => x = v) (verbosities (trace addr (ctor MeV c v)))
      /\ match c with
         | EMPhysics => call_SetVerboseLevel v
         | TherapyPhysics => call_base QGSP_BIC [v]
         | MyQGSP_BERT => call_base QGSP_BERT [v]
         end ∈ trace addr (ctor MeV c v))
  /\ (forall w : World,
      exists w',
        run record (ctor MeV c v) w = inr (tt, w')
        /\ Forall (fun p => po_verbose <$> heap w' !! p = Some v)
                  (drop (length (registered w)) (registered w'))
        /\ length (registered w) < length (registered w')
        /\ match c with
           | EMPhysics => verboseLevel w' = Some v
           | TherapyPhysics => last (bases w') = Some (QGSP_BIC, [v])
           | MyQGSP_BERT => last (bases w') = Some (QGSP_BERT, [v])
           end)%nat.
Proof.
  split.
  - intros addr. destruct c; simpl; split; repeat constructor.
  - intros w. destruct c.
    + eexists. split; [run_record |].
      cbn [bases registered heap verboseLevel].
      rewrite drop_app_length, length_app. cbn [length].
      repeat split; [| lia].
      repeat constructor. rewrite lookup_insert_eq. reflexivity.
    + eexists. split; [run_record |].
      cbn [bases registered heap verboseLevel].
      rewrite drop_app_length, length_app, last_snoc. cbn [length].
      repeat split; [| lia].
      repeat constructor. rewrite lookup_insert_eq. reflexivity.
    + eexists. split; [run_record |].
      cbn [bases registered heap verboseLevel].
      rewrite <- !app_assoc.
      rewrite drop_app_length, length_app, last_snoc. cbn [length app].
      repeat split; [| lia].
      repeat constructor.
      * rewrite lookup_insert_ne by lia.
        rewrite lookup_insert_eq. reflexivity.
      * rewrite lookup_insert_eq. reflexivity.
Qed.

(** C8.  The limit the constructor of [MyQGSP_BERT] puts on the neutron
    tracking cut is [0.5 * MeV], for every verbosity: it is the argument
    of the one [SetKineticEnergyLimit] call, and it is what the object
    carries when the constructor is done. *)
Theorem neutron_cut_is_half_MeV (v : G4int) :
  (forall addr : nat -> ptr,
      energy_limits (trace addr (MyQGSP_BERT_ctor MeV v))
      = [(addr 1%nat, (0.5 * MeV)%float)])
  /\ (forall w : World,
      exists w',
        run record (MyQGSP_BERT_ctor MeV v) w = inr (tt, w')
        /\ heap w' !! next w
           = Some {| po_kind := G4NeutronTrackingCut;
                     po_verbose := v;
                     po_limit := Some (0.5 * MeV)%float |}).
Proof.
  split.
  - intros addr. reflexivity.
  - intros w. eexists. split; [run_record |]. cbn [heap].
    rewrite lookup_insert_ne by lia.
    rewrite lookup_insert_eq. reflexivity.
Qed.

End Constructors.

(** Constructing each list in an empty world, with CLHEP's [MeV] of 1. *)
Example EMPhysics_from_scratch :
  registered_physics <$> after (ctor 1%float EMPhysics 2) World0
  = Some [Some {| po_kind := G4EmStandardPhysics; po_verbose := 2;
                  po_limit := None |}].
Proof. reflexivity. Qed.

Example TherapyPhysics_from_scratch :
  registered_physics <$> after (ctor 1%float TherapyPhysics 0) World0
  = Some [Some {| po_kind := G4StepLimiterPhysics; po_verbose := 0;
                  po_limit := None |}].
Proof. reflexivity. Qed.

Example MyQGSP_BERT_from_scratch :
  registered_physics <$> after (ctor 1%float MyQGSP_BERT (-1)) World0
  = Some [Some {| po_kind := G4NeutronTrackingCut; po_verbose := -1;
                  po_limit := Some 0.5%float |};
          Some {| po_kind := G4StepLimiterPhysics; po_verbose := -1;
                  po_limit := None |}].
Proof. reflexivity. Qed.

(** The recorder throws on a limit set through an address that holds no
    object; the constructor never does that. *)
Example limit_on_missing_object :
  after (SetKineticEnergyLimit 5%N 0.5%float) World0 = None.
Proof. reflexivity. Qed.

(** With CLHEP's unit system, where [MeV] is 1, the limit is 0.5. *)
Example neutron_cut_CLHEP :
  energy_limits (trace N.of_nat (MyQGSP_BERT_ctor 1%float 1))
  = [(1%N, 0.5%float)].
Proof. reflexivity. Qed.

(** ** Shape of the operations *)

(** C6.  No operation branches, loops or handles an error.  The names of
    the calls an operation makes form one fixed list, the same for every
    verbosity and for every answer of the framework; a run throws only what
    a framework call threw; and with a framework that never throws, every
    operation runs to its end. *)
Theorem operations_are_straight_line (MeV : G4double) (v : G4int) :
  (forall addr : nat -> ptr,
      op_of <$> trace addr (EMPhysics_ctor v)
      = [op_base G4VModularPhysicsList; op_cout; op_endl; op_endl;
         op_SetVerboseLevel; op_new G4EmStandardPhysics; op_RegisterPhysics]
      /\ op_of <$> trace addr (TherapyPhysics_ctor v)
         = [op_base QGSP_BIC; op_cout; op_endl; op_endl;
            op_new G4StepLimiterPhysics; op_RegisterPhysics]
      /\ op_of <$> trace addr (MyQGSP_BERT_ctor MeV v)
         = [op_base QGSP_BERT; op_new G4NeutronTrackingCut;
            op_SetKineticEnergyLimit; op_RegisterPhysics;
            op_cout; op_endl; op_endl;
            op_new G4StepLimiterPhysics; op_RegisterPhysics;
            op_cout; op_endl; op_endl]
      /\ op_of <$> trace addr TherapyPhysics_SetCuts
         = [op_base_SetCuts QGSP_BIC]
      /\ op_of <$> trace addr MyQGSP_BERT_SetCuts
         = [op_base_SetCuts QGSP_BERT])
  /\ (forall (v' : G4int) (addr addr' : nat -> ptr),
      Forall2 (fun p p' => op_of <$> trace addr p = op_of <$> trace addr' p')
              (operations MeV v) (operations MeV v'))
  /\ (forall (FW Exn : Type)
             (handle : forall c : G4Call, FW -> Exn + resp c * FW) (s : FW),
      Forall (fun p => match run handle p s with
                       | inl e => exists c s', handle c s' = inl e
                       | inr _ => True
                       end)
             (operations MeV v))
  /\ (forall (FW Exn : Type)
             (answer : forall c : G4Call, FW -> resp c * FW) (s : FW),
      Forall (fun p =>
                exists r,
                  run (fun c s => inr (answer c s) : Exn + resp c * FW) p s
                  = inr r)
             (operations MeV v)).
Proof.
  split; [| split; [| split]].
  - intros addr. repeat split; reflexivity.
  - intros v' addr addr'. unfold operations. simpl.
    repeat constructor.
  - intros FW Exn handle s. apply Forall_forall. intros p _.
    destruct (run handle p s) as [e | r] eqn:Hrun; [| exact I].
    eapply run_failure_origin, Hrun.
  - intros FW Exn answer s. apply Forall_forall. intros p _.
    apply run_total.
Qed.

(** ** State *)

(** C5.  No class declares a data member, and no operation of the
    repository touches a state of its own: run next to any state [L] that
    the framework does not know of, every operation does to the framework
    what it does without [L], and leaves [L] as it was. *)
Theorem no_local_state (MeV : G4double) (v : G4int) :
  (forall c : PhysList, fields (decl c) = [])
  /\ (forall (FW Exn L : Type)
             (handle : forall c : G4Call, FW -> Exn + resp c * FW)
             (s : FW) (l : L),
      Forall (fun p =>
                run (beside handle L) p (s, l)
                = match run handle p s with
                  | inl e => inl e
                  | inr (a, s') => inr (a, (s', l))
                  end)
             (operations MeV v)).
Proof.
  split.
  - intros []; reflexivity.
  - intros FW Exn L handle s l. apply Forall_forall. intros p _.
    apply run_beside.
Qed.

(** ** Default argument *)

(** C9.  Each constructor declares the default verbosity 1, so constructing
    a list without an argument is constructing it with verbosity 1. *)
Theorem default_verbosity_is_1 (MeV : G4double) (c : PhysList) :
  ctor_default (decl c) = Some 1
  /\ construct MeV c None = construct MeV c (Some 1)
  /\ construct MeV c None = Some (ctor MeV c 1).
Proof.
  destruct c; repeat split; reflexivity.
Qed.

(** ** [SetCuts] *)

(** C2 does not hold as worded: [EMPhysics] declares no [SetCuts], so not
    every class overrides it. *)
Lemma EMPhysics_does_not_override_SetCuts :
  overrides "SetCuts" (decl EMPhysics) = false.
Proof. reflexivity. Qed.

(** C2, as the sources have it.  [TherapyPhysics] and [MyQGSP_BERT]
    override [SetCuts], and the override is the parent's [SetCuts] and
    nothing else: it makes that one call and, under every framework, runs
    exactly as that call does.  [EMPhysics] neither declares nor defines
    [SetCuts]; a virtual call on it reaches the function it inherits. *)
Theorem SetCuts_delegates_to_parent :
  overrides "SetCuts" (decl TherapyPhysics) = true
  /\ overrides "SetCuts" (decl MyQGSP_BERT) = true
  /\ overrides "SetCuts" (decl EMPhysics) = false
  /\ SetCuts_def EMPhysics = None
  /\ SetCuts_def TherapyPhysics = Some TherapyPhysics_SetCuts
  /\ SetCuts_def MyQGSP_BERT = Some MyQGSP_BERT_SetCuts
  /\ (forall addr : nat -> ptr,
      trace addr TherapyPhysics_SetCuts = [call_base_SetCuts QGSP_BIC]
      /\ trace addr MyQGSP_BERT_SetCuts = [call_base_SetCuts QGSP_BERT])
  /\ (forall (FW Exn : Type)
             (handle : forall c : G4Call, FW -> Exn + resp c * FW) (s : FW),
      run handle TherapyPhysics_SetCuts s
      = handle (call_base_SetCuts QGSP_BIC) s
      /\ run handle MyQGSP_BERT_SetCuts s
         = handle (call_base_SetCuts QGSP_BERT) s
      /\ forall c : PhysList,
          run handle (SetCuts c) s
          = handle (call_base_SetCuts (cd_base (decl c))) s).
Proof.
  repeat split; try reflexivity.
  - exact (run_call handle (call_base_SetCuts QGSP_BIC) s).
  - exact (run_call handle (call_base_SetCuts QGSP_BERT) s).
  - intros c.
    destruct c; exact (run_call handle (call_base_SetCuts _) s).
Qed.

(** ** The Python module *)

(** C4.  [libphyslist] holds exactly the three names [MyQGSP_BERT],
    [TherapyPhysics] and [EMPhysics]; each names the class of that name
    with the base it has in C++ ([QGSP_BERT], [QGSP_BIC],
    [G4VModularPhysicsList]); no class gets a member defined. *)
Theorem libphyslist_exposes_three_classes :
  dom libphyslist
  = ({[ "MyQGSP_BERT"; "TherapyPhysics"; "EMPhysics" ]} : gset string)
  /\ size libphyslist = 3%nat
  /\ (fun cl => (cl_wrapped cl, cl_bases cl)) <$> libphyslist !! "MyQGSP_BERT"
     = Some (MyQGSP_BERT, [QGSP_BERT])
  /\ (fun cl => (cl_wrapped cl, cl_bases cl))
       <$> libphyslist !! "TherapyPhysics"
     = Some (TherapyPhysics, [QGSP_BIC])
  /\ (fun cl => (cl_wrapped cl, cl_bases cl)) <$> libphyslist !! "EMPhysics"
     = Some (EMPhysics, [G4VModularPhysicsList])
  /\ map_Forall (fun _ cl => cl_defs cl = []
                             /\ cl_held cl = cl_wrapped cl
                             /\ cl_bases cl = [cd_base (decl (cl_wrapped cl))])
                libphyslist.
Proof.
  split; [| split; [reflexivity |]].
  - unfold libphyslist, init_module_libphyslist, expose.
    rewrite !dom_insert_L, dom_empty_L. set_solver.
  - split; [reflexivity |]. split; [reflexivity |]. split; [reflexivity |].
    unfold libphyslist, init_module_libphyslist, expose.
    repeat (apply map_Forall_insert_2; [repeat split; reflexivity |]).
    apply map_Forall_empty.
Qed.

(** ** Copying *)



(** * Further properties of the operations *)

(** ** Ownership of the physics constructors *)

(** X1.  A constructor hands every object it makes with [new] to
    [RegisterPhysics], once, in the order of creation, and registers nothing
    else: the addresses it adds to the list are exactly the addresses
    allocated during its run, without repetition. *)
Theorem ctor_registers_what_it_allocates
    (MeV : G4double) (c : PhysList) (v : G4int) (w : World) :
  exists w',
    after (ctor MeV c v) w = Some w'
    /\ registered w' = registered w ++ allocated w w'
    /\ NoDup (allocated w w')
    /\ allocated w w' <> [].
Proof.
  destruct c; eexists; (split; [unfold after; run_record |]);
    unfold allocated; cbn [next registered].
  - replace (N.succ (next w) - next w)%N with 1%N by lia.
    change (N.to_nat 1) with 1%nat. cbn [seq fmap list_fmap].
    change (N.of_nat 0) with 0%N. rewrite N.add_0_r.
    split; [reflexivity | split; [apply NoDup_singleton | discriminate]].
  - replace (N.succ (next w) - next w)%N with 1%N by lia.
    change (N.to_nat 1) with 1%nat. cbn [seq fmap list_fmap].
    change (N.of_nat 0) with 0%N. rewrite N.add_0_r.
    split; [reflexivity | split; [apply NoDup_singleton | discriminate]].
  - replace (N.succ (N.succ (next w)) - next w)%N with 2%N by lia.
    change (N.to_nat 2) with 2%nat. cbn [seq fmap list_fmap].
    change (N.of_nat 0) with 0%N. change (N.of_nat 1) with 1%N.
    rewrite N.add_0_r, N.add_1_r, <- !app_assoc.
    split; [reflexivity | split; [| discriminate]].
    apply NoDup_cons. split.
    + rewrite list_elem_of_singleton. lia.
    + apply NoDup_singleton.
Qed.

(** X2.  A constructor leaves the objects that were in the store before it
    ran as they were: the limit is set on the neutron cut made by the
    constructor itself, never on one that the list already had. *)
Theorem ctor_keeps_earlier_objects
    (MeV : G4double) (c : PhysList) (v : G4int) (w : World) (p : ptr) :
  (p < next w)%N ->
  (fun w' => heap w' !! p) <$> after (ctor MeV c v) w = Some (heap w !! p).
Proof.
  intros Hp. unfold after.
  destruct c; cbn -[insert lookup N.succ app];
    repeat (rewrite lookup_insert_eq; cbn -[insert lookup N.succ app]);
    f_equal; rewrite !lookup_insert_ne by lia; reflexivity.
Qed.

(** A world that holds one neutron cut with a limit of its own. *)
Lemma ctor_keeps_earlier_objects_witness :
  (fun w' => heap w' !! 0%N)
    <$> after (ctor 1%float MyQGSP_BERT 1)
              {| heap := {[ 0%N := {| po_kind := G4NeutronTrackingCut;
                                      po_verbose := 0;
                                      po_limit := Some 2%float |} ]};
                 next := 1%N; bases := []; verboseLevel := None;
                 registered := [0%N]; cout := []; cuts := [];
                 destroyed := [] |}
  = Some (Some {| po_kind := G4NeutronTrackingCut;
                  po_verbose := 0;
                  po_limit := Some 2%float |}).
Proof.
  exact (ctor_keeps_earlier_objects 1%float MyQGSP_BERT 1
           {| heap := {[ 0%N := {| po_kind := G4NeutronTrackingCut;
                                   po_verbose := 0;
                                   po_limit := Some 2%float |} ]};
              next := 1%N; bases := []; verboseLevel := None;
              registered := [0%N]; cout := []; cuts := [];
              destroyed := [] |}
           0%N eq_refl).
Defined.

(** ** Failure of the base constructor *)

(** X3.  When the constructor of the base class throws, the construction
    of the derived list ends with that same exception, under every
    framework: the body of the constructor does not run. *)
Theorem base_failure_ends_construction
    (MeV : G4double) {FW Exn : Type}
    (handle : forall c : G4Call, FW -> Exn + resp c * FW)
    (s : FW) (e : Exn) (c : PhysList) (v : G4int) :
  handle (call_base (cd_base (decl c))
                    (match c with EMPhysics => [] | _ => [v] end)) s
  = inl e ->
  run handle (ctor MeV c v) s = inl e.
Proof.
  intros Hbase. destruct c; simpl in Hbase |- *; rewrite Hbase; reflexivity.
Qed.

(** A framework whose every call throws its own name. *)
Lemma base_failure_ends_construction_witness :
  run (fun c (_ : unit) => inl (op_of c) : G4Op + resp c * unit)
      (ctor 1%float MyQGSP_BERT 2) tt
  = inl (op_base QGSP_BERT).
Proof.
  exact (base_failure_ends_construction 1%float
           (fun c (_ : unit) => inl (op_of c) : G4Op + resp c * unit)
           tt (op_base QGSP_BERT) MyQGSP_BERT 2 eq_refl).
Defined.

(** ** What the constructors print *)

(** X4.  The text a constructor sends to [G4cout] does not depend on the
    verbosity: the same lines are appended for every [v], also for 0.
    Each message is followed by two line ends. *)
Theorem ctor_output_ignores_verbosity
    (MeV : G4double) (c : PhysList) (v v' : G4int) (w : World) :
  cout <$> after (ctor MeV c v) w = cout <$> after (ctor MeV c v') w
  /\ cout <$> after (ctor MeV c v) w
     = Some (cout w ++
             match c with
             | EMPhysics =>
                 ["<<< Geant4 Physics List simulation engine: EMPhysics";
                  newline; newline]
             | TherapyPhysics =>
                 ["###Adding step limiter physics to the list...";
                  newline; newline]
             | MyQGSP_BERT =>
                 ["###Changing the neutron cuts of the physicslist...";
                  newline; newline;
                  "###Adding step limiter physics to the Geant4 simulation engine...";
                  newline; newline]
             end).
Proof.
  unfold after.
  destruct c; cbn -[insert lookup N.succ app];
    repeat (rewrite lookup_insert_eq; cbn -[insert lookup N.succ app]);
    rewrite <- ?app_assoc; split; reflexivity.
Qed.

(** ** Two lists *)

(** Running [m] and then [f] is running [f] from where [m] ended. *)
Lemma run_bind {FW Exn A B : Type}
    (handle : forall c : G4Call, FW -> Exn + resp c * FW)
    (m : Prog A) (f : A -> Prog B) (s : FW) :
  run handle (m ≫= f) s
  = match run handle m s with
    | inl e => inl e
    | inr (a, s') => run handle (f a) s'
    end.
Proof.
  revert s. induction m as [a | c k IH]; intros s.
  - reflexivity.
  - change (run handle (Do c k ≫= f) s)
      with (match handle c s with
            | inl e => inl e
            | inr (r, s') => run handle (k r ≫= f) s'
            end).
    cbn [run]. destruct (handle c s) as [e | [r s']]; [reflexivity |].
    apply IH.
Qed.

Lemma after_seq (p q : Prog unit) (w : World) :
  after (p;; q) w = after p w ≫= after q.
Proof.
  unfold after. rewrite run_bind.
  destruct (run record p w) as [e | [[] w1]]; reflexivity.
Qed.

(** The recorder never hands out an address twice. *)
Lemma allocated_NoDup (w w' : World) : NoDup (allocated w w').
Proof.
  unfold allocated. apply NoDup_fmap_2; [| apply NoDup_seq].
  intros i j Hij. lia.
Qed.

Lemma allocated_length (w w' : World) :
  length (allocated w w') = N.to_nat (next w' - next w).
Proof.
  unfold allocated. rewrite length_fmap, length_seq. reflexivity.
Qed.

(** Addresses allocated over two stretches of a run. *)
Lemma allocated_app (w w1 w2 : World) :
  (next w <= next w1)%N -> (next w1 <= next w2)%N ->
  allocated w w2 = allocated w w1 ++ allocated w1 w2.
Proof.
  intros H1 H2. unfold allocated.
  replace (N.to_nat (next w2 - next w))
    with (N.to_nat (next w1 - next w) + N.to_nat (next w2 - next w1))%nat
    by lia.
  rewrite seq_app, fmap_app. f_equal.
  set (a := N.to_nat (next w1 - next w)).
  set (b := N.to_nat (next w2 - next w1)).
  replace (seq (0 + a) b) with (Nat.add a <$> seq 0 b)
    by (rewrite fmap_add_seq; f_equal; lia).
  rewrite <- list_fmap_compose.
  apply list_fmap_ext. intros _ i _. subst a. cbn. lia.
Qed.

(** What one construction adds to the list: the addresses it allocated, at
    least one. *)
Lemma ctor_alloc (MeV : G4double) (c : PhysList) (v : G4int) (w : World) :
  exists w',
    after (ctor MeV c v) w = Some w'
    /\ registered w' = registered w ++ allocated w w'
    /\ (next w < next w')%N.
Proof.
  destruct c; eexists; (split; [unfold after; run_record |]);
    unfold allocated; cbn [next registered]; (split; [| lia]).
  - replace (N.succ (next w) - next w)%N with 1%N by lia.
    change (N.to_nat 1) with 1%nat. cbn [seq fmap list_fmap].
    change (N.of_nat 0) with 0%N. rewrite N.add_0_r. reflexivity.
  - replace (N.succ (next w) - next w)%N with 1%N by lia.
    change (N.to_nat 1) with 1%nat. cbn [seq fmap list_fmap].
    change (N.of_nat 0) with 0%N. rewrite N.add_0_r. reflexivity.
  - replace (N.succ (N.succ (next w)) - next w)%N with 2%N by lia.
    change (N.to_nat 2) with 2%nat. cbn [seq fmap list_fmap].
    change (N.of_nat 0) with 0%N. change (N.of_nat 1) with 1%N.
    rewrite N.add_0_r, N.add_1_r, <- !app_assoc. reflexivity.
Qed.

(** X8.  Two lists constructed one after the other share no physics
    constructor: each construction makes its own objects, so what the two
    constructions register are the addresses allocated meanwhile, at least
    two and all different, whatever the two classes and verbosities are. *)
Theorem two_lists_share_nothing
    (MeV : G4double) (c1 c2 : PhysList) (v1 v2 : G4int) (w : World) :
  exists w',
    after (ctor MeV c1 v1;; ctor MeV c2 v2) w = Some w'
    /\ registered w' = registered w ++ allocated w w'
    /\ NoDup (drop (length (registered w)) (registered w'))
    /\ (2 <= length (allocated w w'))%nat.
Proof.
  destruct (ctor_alloc MeV c1 v1 w) as (w1 & Hrun1 & Hreg1 & Hnext1).
  destruct (ctor_alloc MeV c2 v2 w1) as (w2 & Hrun2 & Hreg2 & Hnext2).
  exists w2.
  assert (Hreg : registered w2 = registered w ++ allocated w w2).
  { rewrite Hreg2, Hreg1, <- app_assoc.
    rewrite (allocated_app w w1 w2) by lia. reflexivity. }
  split; [| split; [exact Hreg | split]].
  - rewrite after_seq, Hrun1. exact Hrun2.
  - rewrite Hreg, drop_app_length. apply allocated_NoDup.
  - rewrite allocated_length. lia.
Qed.
